(** * The format-inference batch conversion pipeline of [convert_me.py]

    A shallow embedding of [a-test-dummy/tools/convert_me.py]: the helpers
    [get_file_size], [log_success] and [log_error], the five converters, the
    dispatcher [infer_and_run_conversion] and the batch loop of the script.

    Python code that touches the outside world is written in a small
    state-and-exception monad [Py] over a [World] (regular files,
    directories, the console and the wall clock).  A [try ... except
    Exception] block is [try_except].  The pandas, pyarrow, openpyxl and
    numbers_parser calls are modelled at the level of the table they read or
    write, following the documented behaviour of those libraries: a writer
    stores the values of the frame, and what a reader makes of stored values
    (inferred types, numeric precision) is a parameter of the world.  The
    rich console is a list of printed lines, and printing always succeeds
    (markup is not interpreted). *)

From Stdlib Require Import ZArith Lia String Ascii List DecimalString.
From stdpp Require Import gmap strings list.
Import ListNotations.

Local Open Scope string_scope.
Local Open Scope list_scope.
Local Open Scope Z_scope.

(** ** Strings: [str.lower], [str.upper], [str.rfind], [in] *)

Definition lower_ascii (c : ascii) : ascii :=
  let n := nat_of_ascii c in
  if ((65 <=? n) && (n <=? 90))%nat then ascii_of_nat (n + 32) else c.

Definition upper_ascii (c : ascii) : ascii :=
  let n := nat_of_ascii c in
  if ((97 <=? n) && (n <=? 122))%nat then ascii_of_nat (n - 32) else c.

(** [s.lower()] and [s.upper()].  Strings are byte strings here; bytes above
    127 are left alone, and no character outside ASCII lowercases to a letter
    of a registered extension. *)
Fixpoint lower (s : string) : string :=
  match s with
  | EmptyString => EmptyString
  | String c s' => String (lower_ascii c) (lower s')
  end.

Fixpoint upper (s : string) : string :=
  match s with
  | EmptyString => EmptyString
  | String c s' => String (upper_ascii c) (upper s')
  end.

(** [s.rfind(c)]: the index of the last occurrence of [c], [None] for -1. *)
Fixpoint rfind (c : ascii) (s : string) : option nat :=
  match s with
  | EmptyString => None
  | String a s' =>
      match rfind c s' with
      | Some i => Some (S i)
      | None => if Ascii.eqb a c then Some 0%nat else None
      end
  end.

(** [sub in s] for strings. *)
Fixpoint contains (sub s : string) : bool :=
  String.prefix sub s ||
  match s with
  | EmptyString => false
  | String _ s' => contains sub s'
  end.

(** ** Paths (pathlib)

    A [Path] is the list of its parts, relative to the working directory;
    the empty list is [Path(".")]. *)

Definition Path := list string.

(** [str(p)] *)
Definition path_str (p : Path) : string :=
  match p with
  | [] => "."
  | _ => String.concat "/" p
  end.

(** [p.name]: the final component. *)
Definition name (p : Path) : string := List.last p "".

(** [p.parent] *)
Definition parent (p : Path) : Path := List.removelast p.

(** [p.suffix]: with [i = name.rfind('.')], the text from [i] on when
    [0 < i < len(name) - 1], and [''] otherwise. *)
Definition suffix (p : Path) : string :=
  let nm := name p in
  match rfind "." nm with
  | Some i =>
      if ((0 <? i) && (S i <? String.length nm))%nat
      then String.substring i (String.length nm - i) nm
      else ""
  | None => ""
  end.

(** [Path(a) / b] for a relative [b] given by its parts. *)
Definition joinpath (p q : Path) : Path := p ++ q.

(** The proper and improper ancestors of [p] that [mkdir(parents=True)] may
    have to create: every non-empty prefix of [p]. *)
Fixpoint prefixes (p : Path) : list Path :=
  match p with
  | [] => []
  | x :: q => [x] :: List.map (cons x) (prefixes q)
  end.

(** ** Tabular data and file contents *)

(** A cell value. *)
Inductive cell :=
| VInt (z : Z)
| VStr (s : string)
| VNull.

(** The logical content of a delimited or columnar file or of a sheet: the
    column labels in order and the data rows in order. *)
Record table := Table { header : list cell; body : list (list cell) }.

(** A [pandas.DataFrame].  [df_index = None] is the default [RangeIndex];
    [Some labels] is any other row index. *)
Record DataFrame := Frame {
  df_index : option (list cell);
  columns : list cell;
  values : list (list cell)
}.

(** What is stored at a path, format by format: the values that were
    written.  A CSV file holds a table, a workbook its sheets, a Parquet
    file a table together with the index column it carries ([None]: the
    index is only range metadata), a Numbers document its sheets, each a
    list of tables, each a list of rows. *)
Inductive content :=
| Empty
| CsvText (t : table)
| Workbook (sheets : list table)
| ParquetData (index_column : option (list cell)) (t : table)
| NumbersDoc (sheets : list (list (list (list cell))))
| Other (bytes : string).

Record file := File { st_size : Z; data : content }.

(** The tabular formats that have a reader. *)
Inductive file_format :=
| Csv
| Xlsx
| Parquet.

(** ** The world and Python's exceptions *)

(** A call into the file system, as the trace of a run records it. *)
Inductive fs_op :=
| OpExists (p : Path)
| OpStat (p : Path)
| OpMkdir (p : Path)
| OpRead (p : Path)
| OpWrite (p : Path)
| OpTouch (p : Path).

Record World := MkWorld {
  files : gmap Path file;          (* regular files *)
  dirs : gset Path;                (* directories; [[]] always exists *)
  fs_trace : list fs_op;           (* file-system calls made so far *)
  console : list string;           (* lines printed so far *)
  clock : nat -> Z;                (* n-th reading of time.time(), in microseconds *)
  ticks : nat;                     (* readings taken so far *)
  encoded_size : content -> Z;     (* bytes the writers produce for a content *)
  dir_size : Path -> Z;            (* st_size reported for a directory *)
  infer_cell : file_format -> table -> cell -> cell
                                   (* what the reader of a format makes of a
                                      value written in a table: inferred
                                      type, numeric precision *)
}.

Definition set_files (f : gmap Path file) (w : World) : World :=
  MkWorld f (dirs w) (fs_trace w) (console w) (clock w) (ticks w)
          (encoded_size w) (dir_size w) (infer_cell w).
Definition set_dirs (d : gset Path) (w : World) : World :=
  MkWorld (files w) d (fs_trace w) (console w) (clock w) (ticks w)
          (encoded_size w) (dir_size w) (infer_cell w).
Definition set_trace (t : list fs_op) (w : World) : World :=
  MkWorld (files w) (dirs w) t (console w) (clock w) (ticks w)
          (encoded_size w) (dir_size w) (infer_cell w).
Definition set_console (c : list string) (w : World) : World :=
  MkWorld (files w) (dirs w) (fs_trace w) c (clock w) (ticks w)
          (encoded_size w) (dir_size w) (infer_cell w).
Definition set_ticks (n : nat) (w : World) : World :=
  MkWorld (files w) (dirs w) (fs_trace w) (console w) (clock w) n
          (encoded_size w) (dir_size w) (infer_cell w).

(** The exceptions the modelled calls raise; all derive from [Exception]. *)
Inductive exn :=
| FileNotFoundError (p : Path)
| IsADirectoryError (p : Path)
| NotADirectoryError (p : Path)
| FileExistsError (p : Path)
| ParserError (p : Path)
| EmptyDataError
| IndexError
| ValueError (passed had : nat).

(** [str(e)] *)
Definition str (e : exn) : string :=
  match e with
  | FileNotFoundError p => "[Errno 2] No such file or directory: '" +:+ path_str p +:+ "'"
  | IsADirectoryError p => "[Errno 21] Is a directory: '" +:+ path_str p +:+ "'"
  | NotADirectoryError p => "[Errno 20] Not a directory: '" +:+ path_str p +:+ "'"
  | FileExistsError p => "[Errno 17] File exists: '" +:+ path_str p +:+ "'"
  | ParserError p => "Error reading '" +:+ path_str p +:+ "'"
  | EmptyDataError => "No columns to parse from file"
  | IndexError => "list index out of range"
  | ValueError passed had =>
      NilEmpty.string_of_uint (Nat.to_uint passed) +:+ " columns passed, passed data had " +:+
      NilEmpty.string_of_uint (Nat.to_uint had) +:+ " columns"
  end.

Inductive outcome (A : Type) :=
| Returned (a : A)
| Raised (e : exn).
Arguments Returned {A} a.
Arguments Raised {A} e.

(** A Python computation: it may change the world, and either returns or
    raises; what it did before raising stays done. *)
Definition Py (A : Type) : Type := World -> World * outcome A.

#[global] Instance py_ret : MRet Py := fun A a w => (w, Returned a).

#[global] Instance py_bind : MBind Py := fun A B k m w =>
  match m w with
  | (w', Returned a) => k a w'
  | (w', Raised e) => (w', Raised e)
  end.

Definition raise {A} (e : exn) : Py A := fun w => (w, Raised e).

(** [try: body / except Exception as e: handler(e)] *)
Definition try_except {A} (body : Py A) (handler : exn -> Py A) : Py A := fun w =>
  match body w with
  | (w', Returned a) => (w', Returned a)
  | (w', Raised e) => handler e w'
  end.

(** ** The operating system and the libraries *)

Definition is_dir (p : Path) (w : World) : bool :=
  bool_decide (p = []) || bool_decide (p ∈ dirs w).

Definition is_file (p : Path) (w : World) : bool :=
  bool_decide (is_Some (files w !! p)).

(** Every file-system call leaves its mark on the trace first. *)
Definition fs_call {A} (op : fs_op) (f : World -> World * outcome A) : Py A := fun w =>
  f (set_trace (fs_trace w ++ [op]) w).

(** [p.exists()] *)
Definition path_exists (p : Path) : Py bool :=
  fs_call (OpExists p) (fun w => (w, Returned (is_file p w || is_dir p w))).

(** [p.stat().st_size] *)
Definition stat_size (p : Path) : Py Z :=
  fs_call (OpStat p) (fun w =>
    match files w !! p with
    | Some f => (w, Returned (st_size f))
    | None => if is_dir p w then (w, Returned (dir_size w p))
              else (w, Raised (FileNotFoundError p))
    end).

(** [time.time()] *)
Definition time_time : Py Z := fun w =>
  (set_ticks (S (ticks w)) w, Returned (clock w (ticks w))).

(** [console.print(line)] *)
Definition console_print (line : string) : Py unit := fun w =>
  (set_console (console w ++ [line]) w, Returned tt).

(** [with console.status(msg, spinner="dots"): body].  The spinner is
    transient: it leaves no line behind. *)
Definition console_status {A} (msg : string) (body : Py A) : Py A := body.

(** [d.mkdir(parents=True, exist_ok=True)]: fails when [d] or one of its
    ancestors is a regular file, otherwise [d] and its ancestors are
    directories afterwards, whether they were before or not. *)
Definition mkdir_parents (d : Path) : Py unit :=
  fs_call (OpMkdir d) (fun w =>
    if is_file d w then (w, Raised (FileExistsError d))
    else if existsb (fun q => is_file q w) (prefixes d)
         then (w, Raised (NotADirectoryError d))
         else (set_dirs (list_to_set (prefixes d) ∪ dirs w) w, Returned tt)).

(** Opening [p] and reading all of it. *)
Definition open_read (p : Path) : Py content :=
  fs_call (OpRead p) (fun w =>
    match files w !! p with
    | Some f => (w, Returned (data f))
    | None => if is_dir p w then (w, Raised (IsADirectoryError p))
              else (w, Raised (FileNotFoundError p))
    end).

(** Creating or truncating [p] and writing [c] to it. *)
Definition write_file (p : Path) (c : content) : Py unit :=
  fs_call (OpWrite p) (fun w =>
    if is_dir p w then (w, Raised (IsADirectoryError p))
    else if negb (is_dir (parent p) w) then (w, Raised (FileNotFoundError p))
    else (set_files (<[p := File (encoded_size w c) c]> (files w)) w, Returned tt)).

(** [Path(p).touch()]: an existing file or directory keeps its content; a
    missing file is created with no bytes. *)
Definition touch (p : Path) : Py unit :=
  fs_call (OpTouch p) (fun w =>
    if is_file p w || is_dir p w then (w, Returned tt)
    else if negb (is_dir (parent p) w) then (w, Raised (FileNotFoundError p))
    else (set_files (<[p := File 0 Empty]> (files w)) w, Returned tt)).

(** *** pandas, pyarrow, openpyxl *)

Definition frame_of_table (index : option (list cell)) (t : table) : DataFrame :=
  Frame index (header t) (body t).

(** The labels of the row index: [0 .. n-1] for a [RangeIndex]. *)
Definition index_labels (df : DataFrame) : list cell :=
  match df_index df with
  | Some labels => labels
  | None => List.map (fun i => VInt (Z.of_nat i)) (List.seq 0 (List.length (values df)))
  end.

(** The table a text or spreadsheet writer emits: with [index=True] the index
    labels come first, as one more column under a blank label. *)
Definition table_of_frame (index : bool) (df : DataFrame) : table :=
  if index
  then Table (VStr "" :: columns df)
             (List.map (fun '(i, row) => i :: row) (List.combine (index_labels df) (values df)))
  else Table (columns df) (values df).

(** What the reader of a format makes of a table that was written: the
    labels as they are, the rows in order, each cell as the reader takes it. *)
Definition infer (w : World) (fmt : file_format) (t : table) : table :=
  Table (header t) (List.map (List.map (infer_cell w fmt t)) (body t)).

(** The reader of a format parsing the table that was written. *)
Definition parse (fmt : file_format) (t : table) : Py table := fun w =>
  (w, Returned (infer w fmt t)).

(** [pd.read_csv(p)] *)
Definition pd_read_csv (p : Path) : Py DataFrame :=
  c ← open_read p;
  match c with
  | CsvText t => t' ← parse Csv t; mret (frame_of_table None t')
  | Empty => raise EmptyDataError
  | _ => raise (ParserError p)
  end.

(** [pd.read_excel(p)]: the first sheet. *)
Definition pd_read_excel (p : Path) : Py DataFrame :=
  c ← open_read p;
  match c with
  | Workbook (t :: _) => t' ← parse Xlsx t; mret (frame_of_table None t')
  | _ => raise (ParserError p)
  end.

(** [pd.read_parquet(p, engine="pyarrow")]: the index stored with the data,
    if any, is restored. *)
Definition pd_read_parquet (p : Path) : Py DataFrame :=
  c ← open_read p;
  match c with
  | ParquetData idx t => t' ← parse Parquet t; mret (frame_of_table idx t')
  | _ => raise (ParserError p)
  end.

(** [df.to_csv(p, index=index)] *)
Definition to_csv (df : DataFrame) (p : Path) (index : bool) : Py unit :=
  write_file p (CsvText (table_of_frame index df)).

(** [df.to_excel(p, index=index)]: a workbook with the one sheet. *)
Definition to_excel (df : DataFrame) (p : Path) (index : bool) : Py unit :=
  write_file p (Workbook [table_of_frame index df]).

(** [df.to_parquet(p, engine="pyarrow", compression="snappy")], with the
    default [index=None]: a [RangeIndex] is kept as metadata only, any other
    index is saved with the data. *)
Definition to_parquet (df : DataFrame) (p : Path) : Py unit :=
  write_file p (ParquetData (df_index df) (Table (columns df) (values df))).

(** [pd.DataFrame(rows, columns=headers)] for a list of rows: short rows are
    padded with missing values; a width other than [len(headers)] is a
    [ValueError]. *)
Definition pad_row (n : nat) (row : list cell) : list cell :=
  row ++ List.repeat VNull (n - List.length row).

Definition pd_DataFrame (rows : list (list cell)) (headers : list cell) : Py DataFrame :=
  match rows with
  | [] => mret (Frame None headers [])
  | _ =>
      let width := List.list_max (List.map (@List.length cell) rows) in
      if (width =? List.length headers)%nat
      then mret (Frame None headers (List.map (pad_row width) rows))
      else raise (ValueError (List.length headers) width)
  end.

(** *** numbers_parser *)

(** [Document(str(p))]: the sheets of the document. *)
Definition Document (p : Path) : Py (list (list (list (list cell)))) :=
  c ← open_read p;
  match c with
  | NumbersDoc sheets => mret sheets
  | _ => raise (ParserError p)
  end.

(** [xs[0]] *)
Definition first {A} (xs : list A) : Py A :=
  match xs with
  | x :: _ => mret x
  | [] => raise IndexError
  end.

(** ** Number formatting *)

(** [a / b] rounded to the nearest integer, ties to even ([0 <= a], [0 < b]). *)
Definition round_half_even (a b : Z) : Z :=
  let q := a / b in
  let r := a mod b in
  if 2 * r <? b then q
  else if b <? 2 * r then q + 1
  else if Z.even q then q else q + 1.

Definition decimal (n : Z) : string :=
  NilEmpty.string_of_uint (N.to_uint (Z.to_N n)).

Fixpoint zero_pad (width : nat) (s : string) : string :=
  match width with
  | O => s
  | S k => if (String.length s <? width)%nat then zero_pad k ("0" +:+ s) else s
  end.

(** [f"{x:.{d}f}"] for the number [num / den], [0 < den]: correctly rounded,
    ties to even. *)
Definition format_f (d : nat) (num den : Z) : string :=
  let scale := 10 ^ Z.of_nat d in
  let scaled := round_half_even (Z.abs num * scale) den in
  (if num <? 0 then "-" else "") +:+
  decimal (scaled / scale) +:+ "." +:+ zero_pad d (decimal (scaled mod scale)).

(** A Python number as [get_file_size] meets it: the [int] from [st_size],
    or the [float] [m / 2^e] that true division leaves. *)
Inductive number :=
| PyInt (n : Z)
| PyFloat (m e : Z).

(** The nearest binary64 value to a non-negative integer: 53 significant
    bits, ties to even. *)
Definition round53 (n : Z) : Z :=
  let bits := Z.log2 n + 1 in
  if bits <=? 53 then n
  else let sh := bits - 53 in round_half_even n (2 ^ sh) * 2 ^ sh.

(** [size < 1024] *)
Definition lt_1024 (x : number) : bool :=
  match x with
  | PyInt n => n <? 1024
  | PyFloat m e => m <? 1024 * 2 ^ e
  end.

(** [size /= 1024]: true division; exact on a float, correctly rounded on
    an int. *)
Definition div_1024 (x : number) : number :=
  match x with
  | PyInt n => PyFloat (round53 n) 10
  | PyFloat m e => PyFloat m (e + 10)
  end.

(** [f"{size:.1f}"] *)
Definition fmt_1f (x : number) : string :=
  match x with
  | PyInt n => format_f 1 (round53 n) 1
  | PyFloat m e => format_f 1 m (2 ^ e)
  end.

(** ** Helpers of [convert_me.py] *)

(** The result dictionary of one task, with the keys of the source. *)
Module Stats.
Record t := mk {
  status : string;
  input : string;
  output : string;
  type : string;
  size : string;
  time : string
}.
End Stats.

Definition Success : string := "[green]Success[/green]".
Definition Failed : string := "[red]Failed[/red]".

(** The loop of [get_file_size]:
    [for unit in units: if size < 1024: return f"{size:.1f} {unit}"; size /= 1024]
    and the final [return f"{size:.1f} TB"]. *)
Fixpoint size_loop (units : list string) (size : number) : string :=
  match units with
  | [] => fmt_1f size +:+ " TB"
  | unit :: rest =>
      if lt_1024 size then fmt_1f size +:+ " " +:+ unit
      else size_loop rest (div_1024 size)
  end.

Definition size_label (st_size : Z) : string :=
  size_loop ["B"; "KB"; "MB"; "GB"] (PyInt st_size).

Definition get_file_size (path : Path) : Py string :=
  e ← path_exists path;
  if negb e then mret "0 B"
  else
    size ← stat_size path;
    mret (size_label size).

Definition log_success (input_file output_file : Path) (start_time : Z) : Py Stats.t :=
  now ← time_time;
  let duration := now - start_time in
  file_size ← get_file_size output_file;
  console_print ("[green]✔[/green] converted [bold]" +:+ name input_file +:+
                 "[/bold] -> [bold cyan]" +:+ name output_file +:+ "[/bold]");;
  mret (Stats.mk Success (name input_file) (name output_file)
                 (upper (suffix output_file)) file_size
                 (format_f 2 duration 1000000 +:+ "s")).

(** The line [log_error] prints. *)
Definition failure_line (input_name error : string) : string :=
  "[red]✖[/red] Failed: [bold]" +:+ input_name +:+ "[/bold] (" +:+ error +:+ ")".

Definition log_error (input_file : Path) (output_file : option Path) (error : string)
  : Py Stats.t :=
  console_print (failure_line (name input_file) error);;
  mret (Stats.mk Failed (name input_file)
                 (match output_file with Some o => name o | None => "-" end)
                 "-" "-" "-").

(** ** Core converters *)

Definition csv_to_xlsx (input_file output_file : Path) : Py Stats.t :=
  start ← time_time;
  try_except
    (mkdir_parents (parent output_file);;
     console_status ("[bold yellow]CSV -> Excel:[/bold yellow] " +:+ name input_file +:+ "...")
       (df ← pd_read_csv input_file;
        to_excel df output_file false);;
     log_success input_file output_file start)
    (fun e => log_error input_file (Some output_file) (str e)).

Definition xlsx_to_csv (input_file output_file : Path) : Py Stats.t :=
  start ← time_time;
  try_except
    (mkdir_parents (parent output_file);;
     console_status ("[bold green]Excel -> CSV:[/bold green] " +:+ name input_file +:+ "...")
       (df ← pd_read_excel input_file;
        to_csv df output_file false);;
     log_success input_file output_file start)
    (fun e => log_error input_file (Some output_file) (str e)).

Definition csv_to_parquet (input_file output_file : Path) : Py Stats.t :=
  start ← time_time;
  try_except
    (mkdir_parents (parent output_file);;
     console_status ("[bold blue]CSV -> Parquet:[/bold blue] " +:+ name input_file +:+ "...")
       (df ← pd_read_csv input_file;
        to_parquet df output_file);;
     log_success input_file output_file start)
    (fun e => log_error input_file (Some output_file) (str e)).

Definition parquet_to_csv (input_file output_file : Path) : Py Stats.t :=
  start ← time_time;
  try_except
    (mkdir_parents (parent output_file);;
     console_status ("[bold blue]Parquet -> CSV:[/bold blue] " +:+ name input_file +:+ "...")
       (df ← pd_read_parquet input_file;
        to_csv df output_file false);;
     log_success input_file output_file start)
    (fun e => log_error input_file (Some output_file) (str e)).

Definition numbers_to_csv (input_file output_file : Path) : Py Stats.t :=
  start ← time_time;
  try_except
    (mkdir_parents (parent output_file);;
     console_status ("[bold magenta]Numbers -> CSV:[/bold magenta] " +:+ name input_file +:+ "...")
       (doc ← Document input_file;
        sheet ← first doc;
        table ← first sheet;
        let data := table in
        match data with
        | [] => touch output_file
        | headers :: rest =>
            df ← pd_DataFrame rest headers;
            to_csv df output_file false
        end);;
     log_success input_file output_file start)
    (fun e => log_error input_file (Some output_file) (str e)).

(** ** Inference *)

Definition converter := Path -> Path -> Py Stats.t.

(** The dictionary [mapping], in the order of the literal. *)
Definition mapping : list ((string * string) * converter) :=
  [ ((".csv", ".xlsx"), csv_to_xlsx);
    ((".xlsx", ".csv"), xlsx_to_csv);
    ((".csv", ".parquet"), csv_to_parquet);
    ((".parquet", ".csv"), parquet_to_csv);
    ((".numbers", ".csv"), numbers_to_csv) ].

(** [d.get(key)] *)
Fixpoint dict_get {V} (d : list ((string * string) * V)) (key : string * string) : option V :=
  match d with
  | [] => None
  | (k, v) :: rest => if bool_decide (k = key) then Some v else dict_get rest key
  end.

Definition infer_and_run_conversion (input_path output_path : Path) : Py Stats.t :=
  let i_ext := lower (suffix input_path) in
  let o_ext := lower (suffix output_path) in
  match dict_get mapping (i_ext, o_ext) with
  | Some converter => converter input_path output_path
  | None => log_error input_path (Some output_path) "No valid converter found for format pair"
  end.

(** ** Main execution: the batch loop *)

(** [for input_p, output_p in tasks: ...] with the accumulated [results]. *)
Fixpoint batch_loop (tasks : list (Path * Path)) (results : list Stats.t)
  : Py (list Stats.t) :=
  match tasks with
  | [] => mret results
  | (input_p, output_p) :: rest =>
      e ← path_exists input_p;
      if negb e && negb (contains "missing" (path_str input_p))
      then batch_loop rest results
      else
        result ← infer_and_run_conversion input_p output_p;
        batch_loop rest (results ++ [result])
  end.

Definition run_batch (tasks : list (Path * Path)) : Py (list Stats.t) :=
  batch_loop tasks [].

Definition data_path : Path := ["data"].
Definition sample_csv : Path := joinpath data_path ["sample.csv"].
Definition smart_sample_xlsx : Path := joinpath data_path ["converted"; "smart_sample.xlsx"].
Definition smart_sample_parquet : Path := joinpath data_path ["converted"; "smart_sample.parquet"].
Definition roundtrip_csv : Path := joinpath data_path ["converted"; "roundtrip.csv"].
Definition missing_numbers : Path := joinpath data_path ["missing.numbers"].
Definition fail_test_csv : Path := joinpath data_path ["converted"; "fail_test.csv"].
Definition unknown_format_xyz : Path := joinpath data_path ["converted"; "unknown_format.xyz"].

(** [pd.DataFrame({'a': [1,2], 'b': [3,4]})] *)
Definition sample_frame : DataFrame :=
  Frame None [VStr "a"; VStr "b"] [[VInt 1; VInt 3]; [VInt 2; VInt 4]].

(** Step 1 of the script: the dummy data. *)
Definition setup : Py unit :=
  e ← path_exists sample_csv;
  if negb e
  then mkdir_parents data_path;; to_csv sample_frame sample_csv false
  else mret tt.

Definition tasks : list (Path * Path) :=
  [ (sample_csv, smart_sample_xlsx);
    (sample_csv, smart_sample_parquet);
    (smart_sample_xlsx, roundtrip_csv);
    (missing_numbers, fail_test_csv);
    (sample_csv, unknown_format_xyz) ].

(** The script up to the report: the banner, the progress line and the
    rendering of the report table are presentation and are left out. *)
Definition main : Py (list Stats.t) :=
  setup;;
  run_batch tasks.

(** A world with nothing on disk, a clock that advances 10 ms per reading,
    writers that produce 100 bytes per data row plus 50, and a CSV reader
    for which an empty field is a missing value. *)
Definition rows_of (c : content) : Z :=
  match c with
  | CsvText t | ParquetData _ t => Z.of_nat (List.length (body t))
  | Workbook sheets => Z.of_nat (List.length (List.concat (List.map body sheets)))
  | _ => 0
  end.

Definition blank_is_missing (c : cell) : cell :=
  match c with
  | VStr "" => VNull
  | _ => c
  end.

Definition sample_infer (fmt : file_format) (t : table) (c : cell) : cell :=
  match fmt with
  | Csv => blank_is_missing c
  | Xlsx | Parquet => c
  end.

Definition empty_world : World :=
  MkWorld ∅ ∅ [] [] (fun n => 10000 * Z.of_nat n) 0
          (fun c => 50 + 100 * rows_of c) (fun _ => 4096) sample_infer.

(** * Vocabulary of the statements *)

(** ** Runs *)

(** A computation that returns from every world. *)
Definition returns {A} (m : Py A) : Prop :=
  forall w, exists w' a, m w = (w', Returned a).



(** ** The common shape of the five converters

    Each converter reads the clock, then, inside [try], creates the parent
    directories of the output, does its format-specific work and logs the
    success; the handler logs the error. *)
Definition conversion (work : Path -> Path -> Py unit) (input_file output_file : Path)
  : Py Stats.t :=
  start ← time_time;
  try_except
    (mkdir_parents (parent output_file);;
     work input_file output_file;;
     log_success input_file output_file start)
    (fun e => log_error input_file (Some output_file) (str e)).

Definition csv_to_xlsx_work (i o : Path) : Py unit :=
  df ← pd_read_csv i; to_excel df o false.
Definition xlsx_to_csv_work (i o : Path) : Py unit :=
  df ← pd_read_excel i; to_csv df o false.
Definition csv_to_parquet_work (i o : Path) : Py unit :=
  df ← pd_read_csv i; to_parquet df o.
Definition parquet_to_csv_work (i o : Path) : Py unit :=
  df ← pd_read_parquet i; to_csv df o false.
Definition numbers_to_csv_work (i o : Path) : Py unit :=
  doc ← Document i;
  sheet ← first doc;
  table ← first sheet;
  match table with
  | [] => touch o
  | headers :: rest => df ← pd_DataFrame rest headers; to_csv df o false
  end.


(** ** The registry *)

(** The extension pairs of the specification. *)
Definition registered_pairs : list (string * string) :=
  [ (".csv", ".xlsx"); (".xlsx", ".csv"); (".csv", ".parquet"); (".parquet", ".csv");
    (".numbers", ".csv") ].

(** The lookup [infer_and_run_conversion] performs, on two extensions. *)
Definition lookup (in_ext out_ext : string) : option converter :=
  dict_get mapping (lower in_ext, lower out_ext).

(** ** What a run may change

    A computation [keeps R] when every run, returning or raising, takes a
    world to an [R]-related one. *)
Definition keeps {A} (R : World -> World -> Prop) (m : Py A) : Prop :=
  forall w w' out, m w = (w', out) -> R w w'.

(** Nothing in the pipeline deletes: files stay files, directories stay
    directories, the trace only gets longer, and the readers stay the same. *)
Definition grows (w w' : World) : Prop :=
  (forall p, is_file p w = true -> is_file p w' = true)
  /\ (forall p, is_dir p w = true -> is_dir p w' = true)
  /\ (exists t, fs_trace w' = fs_trace w ++ t)
  /\ infer_cell w' = infer_cell w.

(** ** Outcomes *)




(** ** The batch loop *)




(** ** Sizes, files and frames *)

(** The units of [get_file_size], smallest first. *)
Definition unit_names : list string := ["B"; "KB"; "MB"; "GB"; "TB"].


(** [p] can be written: it is no directory and its parent is one. *)
Definition writable (p : Path) (w : World) : bool :=
  negb (is_dir p w) && is_dir (parent p) w.

(** What is stored at a path. *)
Definition stored (w : World) (p : Path) : option content :=
  data <$> files w !! p.

(** The world after a read of [i] and a write of [c] to [o]. *)
Definition after_write (i o : Path) (c : content) (w : World) : World :=
  set_files (<[o := File (encoded_size w c) c]> (files w))
    (set_trace (fs_trace w ++ [OpRead i; OpWrite o]) w).



(** ** The five conversions, by name *)






(** The world in which the work of a converter starts. *)
Definition after_mkdir (o : Path) (w : World) : World :=
  set_dirs (list_to_set (prefixes (parent o)) ∪ dirs w)
    (set_trace (fs_trace w ++ [OpMkdir (parent o)]) (set_ticks (S (ticks w)) w)).


Definition index_column (c : content) : option (list cell) :=
  match c with
  | ParquetData idx _ => idx
  | _ => None
  end.




(** Only [mkdir] makes directories. *)
Definition same_dirs (w w' : World) : Prop := dirs w' = dirs w.


(** ** Worlds of the examples *)





(** * Vocabulary of the further properties *)

(** What the work of a converter leaves alone: directories, console and
    clock, the readers and writers, and every file but the one at the
    output path [o]. *)
Definition work_frame (o : Path) (w w' : World) : Prop :=
  dirs w' = dirs w /\ console w' = console w /\ ticks w' = ticks w
  /\ (forall p, p <> o -> files w' !! p = files w !! p)
  /\ infer_cell w' = infer_cell w /\ encoded_size w' = encoded_size w
  /\ clock w' = clock w /\ dir_size w' = dir_size w.













(** * Verification *)

(** ** The embedding on small inputs *)

Example suffix_xlsx : suffix ["data"; "converted"; "smart_sample.xlsx"] = ".xlsx".
Proof. reflexivity. Qed.

Example suffix_hidden : suffix [".bashrc"] = "".
Proof. reflexivity. Qed.

Example suffix_last_dot : suffix ["archive.tar.GZ"] = ".GZ".
Proof. reflexivity. Qed.

Example contains_missing : contains "missing" (path_str ["data"; "missing.numbers"]) = true.
Proof. reflexivity. Qed.

Example prefixes_3 :
  prefixes ["a"; "b"; "c"] = [["a"]; ["a"; "b"]; ["a"; "b"; "c"]].
Proof. reflexivity. Qed.

Example round_half_even_down : round_half_even 125 10 = 12.
Proof. reflexivity. Qed.

Example round_half_even_up : round_half_even 175 10 = 18.
Proof. reflexivity. Qed.

Example format_f_2 : format_f 2 1234567 1000000 = "1.23".
Proof. reflexivity. Qed.

Example format_f_pad : format_f 2 50000 1000000 = "0.05".
Proof. reflexivity. Qed.

Example dispatch_ignores_case w :
  infer_and_run_conversion ["REPORT.CSV"] ["out"; "Report.XlsX"] w
  = csv_to_xlsx ["REPORT.CSV"] ["out"; "Report.XlsX"] w.
Proof. reflexivity. Qed.

Example main_statuses :
  (main empty_world).2 =
  Returned
    [ Stats.mk Success "sample.csv" "smart_sample.xlsx" ".XLSX" "250.0 B" "0.01s";
      Stats.mk Success "sample.csv" "smart_sample.parquet" ".PARQUET" "250.0 B" "0.01s";
      Stats.mk Success "smart_sample.xlsx" "roundtrip.csv" ".CSV" "250.0 B" "0.01s";
      Stats.mk Failed "missing.numbers" "fail_test.csv" "-" "-" "-";
      Stats.mk Failed "sample.csv" "unknown_format.xyz" "-" "-" "-" ].
Proof. vm_compute. reflexivity. Qed.

Example main_console_last :
  List.last (console (main empty_world).1) "" =
  "[red]✖[/red] Failed: [bold]sample.csv[/bold] (No valid converter found for format pair)".
Proof. vm_compute. reflexivity. Qed.

(** ** Running computations *)


Lemma run_bind {A B} (m : Py A) (k : A -> Py B) (w : World) :
  (m ≫= k) w =
  match m w with
  | (w', Returned a) => k a w'
  | (w', Raised e) => (w', Raised e)
  end.
Proof. reflexivity. Qed.

Lemma run_bind_returned {A B} (m : Py A) (k : A -> Py B) (w w' : World) (a : A) :
  m w = (w', Returned a) -> (m ≫= k) w = k a w'.
Proof. intros H. rewrite run_bind, H. reflexivity. Qed.

Lemma run_bind_raised {A B} (m : Py A) (k : A -> Py B) (w w' : World) (e : exn) :
  m w = (w', Raised e) -> (m ≫= k) w = (w', Raised e).
Proof. intros H. rewrite run_bind, H. reflexivity. Qed.

Lemma returns_ret {A} (a : A) : returns (mret a : Py A).
Proof. intros w. eauto. Qed.

Lemma returns_bind {A B} (m : Py A) (k : A -> Py B) :
  returns m -> (forall a, returns (k a)) -> returns (m ≫= k).
Proof.
  intros Hm Hk w. destruct (Hm w) as (w1 & a & E).
  rewrite (run_bind_returned _ _ _ _ _ E). apply Hk.
Qed.

(** An [except Exception] clause whose handler returns makes the whole
    statement return, whatever the body does. *)
Lemma returns_try_except {A} (body : Py A) (handler : exn -> Py A) :
  (forall e, returns (handler e)) -> returns (try_except body handler).
Proof.
  intros Hh w. unfold try_except.
  destruct (body w) as [w1 [a | e]]; [eauto | apply Hh].
Qed.

Lemma try_except_returned {A} (body : Py A) (handler : exn -> Py A) w w' a :
  body w = (w', Returned a) -> try_except body handler w = (w', Returned a).
Proof. intros H. unfold try_except. rewrite H. reflexivity. Qed.

Lemma try_except_raised {A} (body : Py A) (handler : exn -> Py A) w w' e :
  body w = (w', Raised e) -> try_except body handler w = handler e w'.
Proof. intros H. unfold try_except. rewrite H. reflexivity. Qed.

(** ** The helpers *)



Lemma log_error_run i o err w :
  log_error i o err w =
  (set_console (console w ++ [failure_line (name i) err]) w,
   Returned (Stats.mk Failed (name i) (match o with Some p => name p | None => "-" end)
                      "-" "-" "-")).
Proof. reflexivity. Qed.


Lemma is_file_lookup p w : is_file p w = match files w !! p with Some _ => true | None => false end.
Proof.
  unfold is_file. destruct (files w !! p) eqn:E.
  - apply bool_decide_eq_true. eauto.
  - apply bool_decide_eq_false. intros [x Hx]. discriminate.
Qed.


Lemma stat_size_run p w :
  stat_size p w =
  (set_trace (fs_trace w ++ [OpStat p]) w,
   match files w !! p with
   | Some f => Returned (st_size f)
   | None => if is_dir p w then Returned (dir_size w p) else Raised (FileNotFoundError p)
   end).
Proof.
  unfold stat_size, fs_call. cbn [files set_trace].
  destruct (files w !! p); [reflexivity|].
  change (is_dir p (set_trace (fs_trace w ++ [OpStat p]) w)) with (is_dir p w).
  destruct (is_dir p w); reflexivity.
Qed.






(** ** The common shape of the converters *)

Lemma csv_to_xlsx_shape : csv_to_xlsx = conversion csv_to_xlsx_work.
Proof. reflexivity. Qed.
Lemma xlsx_to_csv_shape : xlsx_to_csv = conversion xlsx_to_csv_work.
Proof. reflexivity. Qed.
Lemma csv_to_parquet_shape : csv_to_parquet = conversion csv_to_parquet_work.
Proof. reflexivity. Qed.
Lemma parquet_to_csv_shape : parquet_to_csv = conversion parquet_to_csv_work.
Proof. reflexivity. Qed.
Lemma numbers_to_csv_shape : numbers_to_csv = conversion numbers_to_csv_work.
Proof. reflexivity. Qed.




(** ** The registry *)

Lemma infer_and_run_conversion_lookup i o :
  infer_and_run_conversion i o =
  match lookup (suffix i) (suffix o) with
  | Some converter => converter i o
  | None => log_error i (Some o) "No valid converter found for format pair"
  end.
Proof. reflexivity. Qed.

Lemma dict_get_Some_In {V} (d : list ((string * string) * V)) k v :
  dict_get d k = Some v -> In (k, v) d.
Proof.
  induction d as [|[k' v'] d IH]; cbn [dict_get]; [discriminate|].
  case_bool_decide as E.
  - intros [= <-]. subst k'. left. reflexivity.
  - intros H. right. auto.
Qed.

Lemma dict_get_None {V} (d : list ((string * string) * V)) k :
  dict_get d k = None <-> ~ In k (List.map fst d).
Proof.
  induction d as [|[k' v'] d IH]; cbn [dict_get List.map In fst].
  - tauto.
  - case_bool_decide as E.
    + split; [discriminate | intros H; exfalso; apply H; left; exact E].
    + rewrite IH. tauto.
Qed.

Lemma dict_get_In {V} (d : list ((string * string) * V)) k v :
  List.NoDup (List.map fst d) -> In (k, v) d -> dict_get d k = Some v.
Proof.
  induction d as [|[k' v'] d IH]; cbn [dict_get List.map In fst]; [tauto|].
  intros Hnd [E | Hin].
  - inversion E; subst. rewrite bool_decide_eq_true_2 by reflexivity. reflexivity.
  - inversion Hnd as [|? ? Hnotin Hnd']; subst.
    case_bool_decide as E.
    + subst k'. exfalso. apply Hnotin.
      change k with (fst (k, v)). apply List.in_map. exact Hin.
    + auto.
Qed.

Lemma mapping_keys : List.map fst mapping = registered_pairs.
Proof. reflexivity. Qed.

Lemma registered_pairs_NoDup : List.NoDup registered_pairs.
Proof.
  unfold registered_pairs.
  repeat (constructor; [cbn [In]; intuition discriminate|]). constructor.
Qed.


Lemma lower_ascii_idem c : lower_ascii (lower_ascii c) = lower_ascii c.
Proof. destruct c as [[] [] [] [] [] [] [] []]; reflexivity. Qed.

Lemma lower_idem s : lower (lower s) = lower s.
Proof. induction s as [|c s IH]; cbn; [|rewrite lower_ascii_idem, IH]; reflexivity. Qed.

Lemma lower_upper_ascii c : lower_ascii (upper_ascii c) = lower_ascii c.
Proof. destruct c as [[] [] [] [] [] [] [] []]; reflexivity. Qed.

Lemma lower_upper s : lower (upper s) = lower s.
Proof. induction s as [|c s IH]; cbn; [|rewrite lower_upper_ascii, IH]; reflexivity. Qed.

(** [C4] [infer_and_run_conversion] dispatches on the registry lookup of the
    two suffixes.  The lookup lowercases both extensions (so extensions that
    differ only in case resolve alike, whatever their case), matches the
    lowercased pair exactly against the keys, and the keys are exactly the
    five fixed pairs, each with its own converter; every other pair
    resolves to nothing.  Near misses do not match: a missing leading dot, a
    truncated or a longer extension. *)
Theorem registry_lookup_exact :
  (forall i o,
     infer_and_run_conversion i o =
     match lookup (suffix i) (suffix o) with
     | Some converter => converter i o
     | None => log_error i (Some o) "No valid converter found for format pair"
     end)
  /\ List.map fst mapping = registered_pairs
  /\ List.NoDup registered_pairs
  /\ (forall a b c, lookup a b = Some c <-> In ((lower a, lower b), c) mapping)
  /\ (forall a b, lookup a b = None <-> ~ In (lower a, lower b) registered_pairs)
  /\ (forall a b a' b', lower a = lower a' -> lower b = lower b' ->
        lookup a b = lookup a' b')
  /\ (forall a b, lookup (upper a) (upper b) = lookup a b
                  /\ lookup (lower a) (lower b) = lookup a b)
  /\ lookup ".csv" ".xlsx" = Some csv_to_xlsx
  /\ lookup ".xlsx" ".csv" = Some xlsx_to_csv
  /\ lookup ".csv" ".parquet" = Some csv_to_parquet
  /\ lookup ".parquet" ".csv" = Some parquet_to_csv
  /\ lookup ".numbers" ".csv" = Some numbers_to_csv
  /\ lookup ".CSV" ".XlsX" = Some csv_to_xlsx
  /\ lookup "csv" "xlsx" = None
  /\ lookup ".cs" ".xlsx" = None
  /\ lookup ".csvx" ".xlsx" = None
  /\ lookup ".xlsx" ".parquet" = None.
Proof.
  split; [exact infer_and_run_conversion_lookup|].
  split; [exact mapping_keys|].
  split; [exact registered_pairs_NoDup|].
  split.
  { intros a b c. unfold lookup. split.
    - apply dict_get_Some_In.
    - apply dict_get_In. rewrite mapping_keys. exact registered_pairs_NoDup. }
  split.
  { intros a b. unfold lookup. rewrite dict_get_None, mapping_keys. reflexivity. }
  split.
  { intros a b a' b' Ha Hb. unfold lookup. rewrite Ha, Hb. reflexivity. }
  split.
  { intros a b. unfold lookup. rewrite !lower_upper, !lower_idem. split; reflexivity. }
  repeat split; reflexivity.
Qed.

(** [C3] A pair of paths whose lowercased extensions are not a registered
    pair: [infer_and_run_conversion] returns the failure record, the error it
    logs is exactly the fixed message, and it makes no file-system call: the
    trace, the files and the directories are as before (the clock is not
    even read). *)
Theorem unregistered_pair_fails (input_path output_path : Path) (w : World) :
  ~ In (lower (suffix input_path), lower (suffix output_path)) registered_pairs ->
  exists w' r,
    infer_and_run_conversion input_path output_path w = (w', Returned r)
    /\ r = Stats.mk Failed (name input_path) (name output_path) "-" "-" "-"
    /\ console w' = console w ++
         [failure_line (name input_path) "No valid converter found for format pair"]
    /\ fs_trace w' = fs_trace w
    /\ files w' = files w /\ dirs w' = dirs w /\ ticks w' = ticks w.
Proof.
  intros Hnot.
  rewrite infer_and_run_conversion_lookup.
  assert (lookup (suffix input_path) (suffix output_path) = None) as ->.
  { unfold lookup. rewrite dict_get_None, mapping_keys. exact Hnot. }
  rewrite log_error_run. do 2 eexists. repeat split; reflexivity.
Qed.

Lemma unregistered_pair_fails_witness :
  exists w' r,
    infer_and_run_conversion ["notes.txt"] ["out"; "notes.yaml"] empty_world = (w', Returned r)
    /\ r = Stats.mk Failed "notes.txt" "notes.yaml" "-" "-" "-"
    /\ console w' =
         ["[red]✖[/red] Failed: [bold]notes.txt[/bold] (No valid converter found for format pair)"]
    /\ fs_trace w' = []
    /\ files w' = ∅ /\ dirs w' = ∅ /\ ticks w' = 0%nat.
Proof.
  apply (unregistered_pair_fails ["notes.txt"] ["out"; "notes.yaml"] empty_world).
  cbn. intuition discriminate.
Defined.

(** ** What a run may change *)

Section Keeps.
Variable R : World -> World -> Prop.
Hypothesis R_refl : forall w, R w w.
Hypothesis R_trans : forall w1 w2 w3, R w1 w2 -> R w2 w3 -> R w1 w3.

Lemma keeps_ret {A} (a : A) : keeps R (mret a : Py A).
Proof. intros w w' out [= <- _]. apply R_refl. Qed.

Lemma keeps_raise {A} (e : exn) : keeps R (raise e : Py A).
Proof. intros w w' out [= <- _]. apply R_refl. Qed.

Lemma keeps_bind {A B} (m : Py A) (k : A -> Py B) :
  keeps R m -> (forall a, keeps R (k a)) -> keeps R (m ≫= k).
Proof.
  intros Hm Hk w w' out. rewrite run_bind.
  destruct (m w) as [w1 [a | e]] eqn:E.
  - intros Hrun. eapply R_trans; [eapply Hm, E | eapply Hk, Hrun].
  - intros [= <- _]. eapply Hm, E.
Qed.

Lemma keeps_try_except {A} (body : Py A) (handler : exn -> Py A) :
  keeps R body -> (forall e, keeps R (handler e)) -> keeps R (try_except body handler).
Proof.
  intros Hb Hh w w' out. unfold try_except.
  destruct (body w) as [w1 [a | e]] eqn:E.
  - intros [= <- _]. eapply Hb, E.
  - intros Hrun. eapply R_trans; [eapply Hb, E | eapply Hh, Hrun].
Qed.
End Keeps.

(** Decompose a computation along its binds and matches; [solver] closes
    the calls it is made of. *)
Ltac keeps_with refl trans solver :=
  repeat first
    [ apply (keeps_bind _ trans); [| intros ?]
    | apply (keeps_try_except _ trans); [| intros ?]
    | apply (keeps_ret _ refl)
    | apply (keeps_raise _ refl)
    | solve [solver]
    | match goal with
      | |- keeps _ (match ?x with _ => _ end) => destruct x
      | |- keeps _ (if ?b then _ else _) => destruct b
      end ].

Lemma grows_refl w : grows w w.
Proof.
  split; [auto|]. split; [auto|]. split; [|reflexivity].
  exists []. rewrite app_nil_r. reflexivity.
Qed.

Lemma grows_trans w1 w2 w3 : grows w1 w2 -> grows w2 w3 -> grows w1 w3.
Proof.
  intros (F1 & D1 & [t1 T1] & I1) (F2 & D2 & [t2 T2] & I2).
  split; [auto|]. split; [auto|]. split; [|congruence].
  exists (t1 ++ t2). rewrite T2, T1, app_assoc. reflexivity.
Qed.

Lemma grows_set_trace op w : grows w (set_trace (fs_trace w ++ [op]) w).
Proof.
  split; [auto|]. split; [auto|]. split; [|reflexivity].
  eexists; reflexivity.
Qed.

Lemma grows_same w w' :
  files w' = files w -> dirs w' = dirs w -> fs_trace w' = fs_trace w ->
  infer_cell w' = infer_cell w -> grows w w'.
Proof.
  intros Hf Hd Ht Hi. unfold grows, is_file, is_dir. rewrite Hf, Hd, Ht.
  split; [auto|]. split; [auto|]. split; [|exact Hi].
  exists []. rewrite app_nil_r. reflexivity.
Qed.

Lemma grows_set_console c w : grows w (set_console c w).
Proof. apply grows_same; reflexivity. Qed.

Lemma grows_set_ticks n w : grows w (set_ticks n w).
Proof. apply grows_same; reflexivity. Qed.

Lemma is_file_insert p q f w :
  is_file p w = true -> is_file p (set_files (<[q := f]> (files w)) w) = true.
Proof.
  rewrite !is_file_lookup. cbn [files set_files].
  destruct (decide (q = p)) as [->|Hne].
  - rewrite lookup_insert_eq. reflexivity.
  - rewrite lookup_insert_ne by exact Hne. auto.
Qed.

Lemma grows_set_files q f w : grows w (set_files (<[q := f]> (files w)) w).
Proof.
  split; [auto using is_file_insert|]. split; [auto|]. split; [|reflexivity].
  exists []. rewrite app_nil_r. reflexivity.
Qed.

Lemma is_dir_union p ds w :
  is_dir p w = true -> is_dir p (set_dirs (ds ∪ dirs w) w) = true.
Proof.
  unfold is_dir. cbn [dirs set_dirs].
  rewrite !orb_true_iff, !bool_decide_eq_true.
  intros [E | Hin]; [left; exact E | right; apply elem_of_union_r, Hin].
Qed.

Lemma grows_set_dirs ds w : grows w (set_dirs (ds ∪ dirs w) w).
Proof.
  split; [auto|]. split; [auto using is_dir_union|]. split; [|reflexivity].
  exists []. rewrite app_nil_r. reflexivity.
Qed.

Lemma keeps_fs_call {A} op (f : World -> World * outcome A) :
  keeps grows f -> keeps grows (fs_call op f).
Proof.
  intros Hf w w' out Hrun. unfold fs_call in Hrun.
  eapply grows_trans; [apply grows_set_trace | eapply Hf, Hrun].
Qed.

Lemma keeps_path_exists p : keeps grows (path_exists p).
Proof. apply keeps_fs_call. intros w w' out [= <- _]. apply grows_refl. Qed.

Lemma keeps_stat_size p : keeps grows (stat_size p).
Proof.
  apply keeps_fs_call. intros w w' out.
  destruct (files w !! p); [|destruct (is_dir p w)]; intros [= <- _]; apply grows_refl.
Qed.

Lemma keeps_time_time : keeps grows time_time.
Proof. intros w w' out [= <- _]. apply grows_set_ticks. Qed.

Lemma keeps_console_print line : keeps grows (console_print line).
Proof. intros w w' out [= <- _]. apply grows_set_console. Qed.

Lemma keeps_mkdir_parents d : keeps grows (mkdir_parents d).
Proof.
  apply keeps_fs_call. intros w w' out.
  destruct (is_file d w); [intros [= <- _]; apply grows_refl|].
  destruct (existsb _ _); intros [= <- _]; [apply grows_refl | apply grows_set_dirs].
Qed.

Lemma keeps_open_read p : keeps grows (open_read p).
Proof.
  apply keeps_fs_call. intros w w' out.
  destruct (files w !! p); [|destruct (is_dir p w)]; intros [= <- _]; apply grows_refl.
Qed.

Lemma keeps_write_file p c : keeps grows (write_file p c).
Proof.
  apply keeps_fs_call. intros w w' out.
  destruct (is_dir p w); [intros [= <- _]; apply grows_refl|].
  destruct (negb _); intros [= <- _]; [apply grows_refl | apply grows_set_files].
Qed.

Lemma keeps_touch p : keeps grows (touch p).
Proof.
  apply keeps_fs_call. intros w w' out.
  destruct (is_file p w || is_dir p w); [intros [= <- _]; apply grows_refl|].
  destruct (negb _); intros [= <- _]; [apply grows_refl | apply grows_set_files].
Qed.

Lemma keeps_parse fmt t : keeps grows (parse fmt t).
Proof. intros w w' out [= <- _]. apply grows_refl. Qed.

Create HintDb keeps_db.
#[local] Hint Resolve keeps_path_exists keeps_stat_size keeps_time_time keeps_console_print
  keeps_mkdir_parents keeps_open_read keeps_write_file keeps_touch keeps_parse : keeps_db.

Ltac keeps_steps := keeps_with grows_refl grows_trans ltac:(eauto with keeps_db).

Lemma keeps_pd_read_csv p : keeps grows (pd_read_csv p).
Proof. unfold pd_read_csv. keeps_steps. Qed.

Lemma keeps_pd_read_excel p : keeps grows (pd_read_excel p).
Proof. unfold pd_read_excel. keeps_steps. Qed.

Lemma keeps_pd_read_parquet p : keeps grows (pd_read_parquet p).
Proof. unfold pd_read_parquet. keeps_steps. Qed.

Lemma keeps_Document p : keeps grows (Document p).
Proof. unfold Document. keeps_steps. Qed.

Lemma keeps_first {A} (xs : list A) : keeps grows (first xs).
Proof. unfold first. keeps_steps. Qed.

Lemma keeps_pd_DataFrame rows headers : keeps grows (pd_DataFrame rows headers).
Proof. unfold pd_DataFrame. keeps_steps. Qed.

#[local] Hint Resolve keeps_pd_read_csv keeps_pd_read_excel keeps_pd_read_parquet
  keeps_Document keeps_first keeps_pd_DataFrame : keeps_db.







(** ** Outcome of one conversion *)







(** ** The batch loop *)












(** ** The size label *)

Lemma size_label_unfold n :
  size_label n =
  if n <? 1024 then format_f 1 (round53 n) 1 +:+ " B"
  else if round53 n <? 2 ^ 20 then format_f 1 (round53 n) (2 ^ 10) +:+ " KB"
  else if round53 n <? 2 ^ 30 then format_f 1 (round53 n) (2 ^ 20) +:+ " MB"
  else if round53 n <? 2 ^ 40 then format_f 1 (round53 n) (2 ^ 30) +:+ " GB"
  else format_f 1 (round53 n) (2 ^ 40) +:+ " TB".
Proof. reflexivity. Qed.

Lemma round53_small n : 0 <= n < 2 ^ 53 -> round53 n = n.
Proof.
  intros [H0 H1]. unfold round53.
  destruct (Z.eq_dec n 0) as [->|Hn]; [reflexivity|].
  assert (Z.log2 n < 53) by (apply Z.log2_lt_pow2; lia).
  destruct (Z.leb_spec (Z.log2 n + 1) 53); [reflexivity | lia].
Qed.

Lemma round_half_even_floor a b : a / b <= round_half_even a b.
Proof.
  unfold round_half_even.
  destruct (2 * (a mod b) <? b); [lia|].
  destruct (b <? 2 * (a mod b)); [lia|].
  destruct (Z.even (a / b)); lia.
Qed.

Lemma round53_large n : 2 ^ 53 <= n -> 2 ^ 53 <= round53 n.
Proof.
  intros H. unfold round53.
  assert (53 <= Z.log2 n) as Hlog by (apply Z.log2_le_pow2; lia).
  destruct (Z.leb_spec (Z.log2 n + 1) 53) as [Hle | Hlt]; [lia|].
  set (sh := Z.log2 n + 1 - 53).
  assert (1 <= sh) as Hsh by (unfold sh; lia).
  assert (0 < 2 ^ sh) as Hpos by (apply Z.pow_pos_nonneg; lia).
  assert (2 ^ 52 <= n / 2 ^ sh) as Hq.
  { apply Z.div_le_lower_bound; [exact Hpos|].
    rewrite <- Z.pow_add_r by lia.
    replace (sh + 52) with (Z.log2 n) by (unfold sh; lia).
    apply Z.log2_spec. lia. }
  pose proof (round_half_even_floor n (2 ^ sh)) as Hfl.
  assert (2 <= 2 ^ sh) as H2.
  { change 2 with (2 ^ 1) at 1. apply Z.pow_le_mono_r; lia. }
  change (2 ^ 53) with (2 ^ 52 * 2).
  apply Z.mul_le_mono_nonneg; lia.
Qed.

Lemma round53_ltb n T : 0 <= n -> T <= 2 ^ 53 -> (round53 n <? T) = (n <? T).
Proof.
  intros H0 HT. destruct (Z.lt_ge_cases n (2 ^ 53)) as [Hs | Hl].
  - rewrite round53_small by lia. reflexivity.
  - pose proof (round53_large n Hl).
    destruct (Z.ltb_spec (round53 n) T), (Z.ltb_spec n T); try reflexivity; lia.
Qed.



Example size_label_500 : size_label 500 = "500.0 B".
Proof. reflexivity. Qed.

Example size_label_2048 : size_label 2048 = "2.0 KB".
Proof. reflexivity. Qed.

Example size_label_1023 : size_label 1023 = "1023.0 B".
Proof. reflexivity. Qed.

Example size_label_tie_even : size_label 1280 = "1.2 KB".
Proof. reflexivity. Qed.

Example size_label_TB : size_label (5 * 1024 ^ 5) = "5120.0 TB".
Proof. reflexivity. Qed.

Example size_label_below_MB : size_label (1024 ^ 2 - 1) = "1024.0 KB".
Proof. reflexivity. Qed.

Example size_label_absent : (get_file_size ["nowhere.csv"] empty_world).2 = Returned "0 B".
Proof. reflexivity. Qed.

(** ** Runs of the file-system calls and of the readers *)

Lemma is_dir_set_trace p t w : is_dir p (set_trace t w) = is_dir p w.
Proof. reflexivity. Qed.

Lemma is_file_set_trace p t w : is_file p (set_trace t w) = is_file p w.
Proof. reflexivity. Qed.

Lemma open_read_run p w :
  open_read p w =
  (set_trace (fs_trace w ++ [OpRead p]) w,
   match files w !! p with
   | Some f => Returned (data f)
   | None => Raised (if is_dir p w then IsADirectoryError p else FileNotFoundError p)
   end).
Proof.
  unfold open_read, fs_call. cbn [files set_trace].
  destruct (files w !! p); [reflexivity|].
  rewrite is_dir_set_trace. destruct (is_dir p w); reflexivity.
Qed.


Lemma write_file_run p c w :
  write_file p c w =
  if writable p w
  then (set_files (<[p := File (encoded_size w c) c]> (files w))
          (set_trace (fs_trace w ++ [OpWrite p]) w), Returned tt)
  else (set_trace (fs_trace w ++ [OpWrite p]) w,
        Raised (if is_dir p w then IsADirectoryError p else FileNotFoundError p)).
Proof.
  unfold write_file, fs_call, writable. rewrite !is_dir_set_trace.
  destruct (is_dir p w); cbn [negb andb]; [reflexivity|].
  destruct (is_dir (parent p) w); reflexivity.
Qed.

Lemma touch_run p w :
  touch p w =
  if is_file p w || is_dir p w then (set_trace (fs_trace w ++ [OpTouch p]) w, Returned tt)
  else if is_dir (parent p) w
       then (set_files (<[p := File 0 Empty]> (files w))
               (set_trace (fs_trace w ++ [OpTouch p]) w), Returned tt)
       else (set_trace (fs_trace w ++ [OpTouch p]) w, Raised (FileNotFoundError p)).
Proof.
  unfold touch, fs_call. rewrite !is_dir_set_trace, is_file_set_trace.
  destruct (is_file p w || is_dir p w); [reflexivity|].
  destruct (is_dir (parent p) w); reflexivity.
Qed.






Lemma stored_insert w1 w p sz c :
  files w1 = <[p := File sz c]> (files w) -> stored w1 p = Some c.
Proof. intros H. unfold stored. rewrite H, lookup_insert_eq. reflexivity. Qed.

(** ** A successful conversion, step by step *)













(** ** The five conversions, by name *)




Lemma stored_after_mkdir o w p : stored (after_mkdir o w) p = stored w p.
Proof. reflexivity. Qed.


Lemma stored_after_write_ne i o c w p :
  p <> o -> stored (after_write i o c w) p = stored w p.
Proof.
  intros H. unfold stored, after_write. cbn [files set_files].
  rewrite lookup_insert_ne by auto. reflexivity.
Qed.


Lemma table_of_frame_index df :
  header (table_of_frame false df) = columns df
  /\ body (table_of_frame false df) = values df
  /\ List.length (header (table_of_frame true df)) = S (List.length (columns df)).
Proof. repeat split. Qed.


(** ** Round trips *)







(** ** Directories *)

Lemma same_dirs_refl w : same_dirs w w.
Proof. reflexivity. Qed.

Lemma same_dirs_trans w1 w2 w3 : same_dirs w1 w2 -> same_dirs w2 w3 -> same_dirs w1 w3.
Proof. unfold same_dirs. congruence. Qed.

Lemma dirs_path_exists p : keeps same_dirs (path_exists p).
Proof. intros w w' out [= <- _]. reflexivity. Qed.

Lemma dirs_stat_size p : keeps same_dirs (stat_size p).
Proof. intros w w' out. rewrite stat_size_run. intros [= <- _]. reflexivity. Qed.

Lemma dirs_time_time : keeps same_dirs time_time.
Proof. intros w w' out [= <- _]. reflexivity. Qed.

Lemma dirs_console_print line : keeps same_dirs (console_print line).
Proof. intros w w' out [= <- _]. reflexivity. Qed.

Lemma dirs_open_read p : keeps same_dirs (open_read p).
Proof. intros w w' out. rewrite open_read_run. intros [= <- _]. reflexivity. Qed.

Lemma dirs_write_file p c : keeps same_dirs (write_file p c).
Proof.
  intros w w' out. rewrite write_file_run.
  destruct (writable p w); intros [= <- _]; reflexivity.
Qed.

Lemma dirs_touch p : keeps same_dirs (touch p).
Proof.
  intros w w' out. rewrite touch_run.
  destruct (is_file p w || is_dir p w); [|destruct (is_dir (parent p) w)];
    intros [= <- _]; reflexivity.
Qed.

Lemma dirs_parse fmt t : keeps same_dirs (parse fmt t).
Proof. intros w w' out [= <- _]. reflexivity. Qed.

Create HintDb dirs_db.
#[local] Hint Resolve dirs_path_exists dirs_stat_size dirs_time_time dirs_console_print
  dirs_open_read dirs_write_file dirs_touch dirs_parse : dirs_db.

Ltac dirs_steps := keeps_with same_dirs_refl same_dirs_trans ltac:(eauto with dirs_db).


Lemma dirs_log_success i o start : keeps same_dirs (log_success i o start).
Proof. unfold log_success, get_file_size. dirs_steps. Qed.

Lemma dirs_log_error i o err : keeps same_dirs (log_error i o err).
Proof. unfold log_error. dirs_steps. Qed.



(** ** Failure records *)







(** ** The size label of a successful conversion *)








(** ** Numbers documents *)






(** Where nothing is at the output path, the same document gives a file
    without bytes; with rows, it gives header and data rows. *)
Example numbers_to_csv_fresh_output :
  let w := set_files (<[["in.numbers"] := File 1000 (NumbersDoc [[[]]])]> ∅) empty_world in
  files (numbers_to_csv ["in.numbers"] ["out.csv"] w).1 !! ["out.csv"] = Some (File 0 Empty).
Proof. vm_compute. reflexivity. Qed.

Example numbers_to_csv_rows :
  let doc := NumbersDoc [[[[VStr "x"; VStr "y"]; [VInt 1; VInt 2]; [VInt 3; VInt 4]]]] in
  let w := set_files (<[["in.numbers"] := File 1000 doc]> ∅) empty_world in
  stored (numbers_to_csv ["in.numbers"] ["out.csv"] w).1 ["out.csv"]
  = Some (CsvText (Table [VStr "x"; VStr "y"] [[VInt 1; VInt 2]; [VInt 3; VInt 4]])).
Proof. vm_compute. reflexivity. Qed.

(** A round trip on which the CSV reader does change a value: the empty
    text of the input comes back as a missing value. *)
Example round_trip_normalises :
  let t := Table [VStr "a"; VStr "b"] [[VInt 1; VStr ""]] in
  let w := set_files (<[["in.csv"] := File 10 (CsvText t)]> ∅) empty_world in
  let w1 := (csv_to_xlsx ["in.csv"] ["mid.xlsx"] w).1 in
  let w2 := (xlsx_to_csv ["mid.xlsx"] ["out.csv"] w1).1 in
  stored w2 ["out.csv"] = Some (CsvText (Table [VStr "a"; VStr "b"] [[VInt 1; VNull]]))
  /\ infer w Csv t = Table [VStr "a"; VStr "b"] [[VInt 1; VNull]].
Proof. split; vm_compute; reflexivity. Qed.

(** ** The script's own run as an instance *)




(** * Further properties of the code *)

(** ** The work of a converter *)








(** ** What a conversion leaves alone *)



Lemma frame_open_read o p : keeps (work_frame o) (open_read p).
Proof. intros w w' out. rewrite open_read_run. intros [= <- _]. repeat split. Qed.

Lemma frame_parse o fmt t : keeps (work_frame o) (parse fmt t).
Proof. intros w w' out [= <- _]. repeat split. Qed.

Lemma frame_write_file o c : keeps (work_frame o) (write_file o c).
Proof.
  intros w w' out. rewrite write_file_run.
  destruct (writable o w); intros [= <- _]; [|repeat split].
  unfold work_frame.
  cbn [dirs console ticks files infer_cell encoded_size clock dir_size set_files set_trace].
  repeat split. intros p Hp. apply lookup_insert_ne. congruence.
Qed.

Lemma frame_touch o : keeps (work_frame o) (touch o).
Proof.
  intros w w' out. rewrite touch_run.
  destruct (is_file o w || is_dir o w); [|destruct (is_dir (parent o) w)];
    intros [= <- _]; try (repeat split; fail).
  unfold work_frame.
  cbn [dirs console ticks files infer_cell encoded_size clock dir_size set_files set_trace].
  repeat split. intros p Hp. apply lookup_insert_ne. congruence.
Qed.

Create HintDb frame_db.
#[local] Hint Resolve frame_open_read frame_parse frame_write_file frame_touch : frame_db.



(** ** [get_file_size] *)


Lemma round_half_even_eq a b Q :
  0 < b -> (2 * Q - 1) * b <= 2 * a -> 2 * a < (2 * Q + 1) * b -> Z.even Q = true ->
  round_half_even a b = Q.
Proof.
  intros Hb Hlo Hhi Heven. unfold round_half_even.
  pose proof (Z.div_mod a b ltac:(lia)) as Hdiv.
  pose proof (Z.mod_pos_bound a b Hb) as Hr.
  set (q := a / b) in *. set (r := a mod b) in *.
  assert (q = Q \/ q = Q - 1) as [Hq | Hq] by nia.
  - subst q. rewrite Hq in *. destruct (Z.ltb_spec (2 * r) b); [reflexivity | nia].
  - assert (Z.even q = false) as Hodd.
    { rewrite Hq, Z.even_sub, Heven. reflexivity. }
    rewrite Hodd.
    destruct (Z.ltb_spec (2 * r) b); [nia|].
    destruct (Z.ltb_spec b (2 * r)); lia.
Qed.

Lemma format_f_1024 n b :
  0 < b -> 20479 * b <= 20 * n -> n < 1024 * b -> format_f 1 n b = "1024.0".
Proof.
  intros Hb Hlo Hhi. unfold format_f.
  change (10 ^ Z.of_nat 1) with 10.
  rewrite Z.abs_eq by nia.
  destruct (Z.ltb_spec n 0) as [Hneg | _]; [nia|].
  rewrite (round_half_even_eq (n * 10) b 10240); [reflexivity | lia | lia | lia | reflexivity].
Qed.

(** [X2] The number in a size label is not always below 1024: a size less
    than one twentieth of a unit below the next power of 1024 passes the
    test [size < 1024] and is then rounded up by the format, so it is shown
    as "1024.0" of the smaller unit (1048575 bytes are "1024.0 KB", not
    "1.0 MB"). *)
Theorem size_label_rounds_up_to_1024 (k : nat) (n : Z) :
  (1 <= k <= 3)%nat ->
  n < 1024 ^ (Z.of_nat k + 1) ->
  20 * (1024 ^ (Z.of_nat k + 1) - n) <= 1024 ^ Z.of_nat k ->
  size_label n = "1024.0 " +:+ List.nth k unit_names "".
Proof.
  intros Hk Hhi Hlo.
  assert (k = 1 \/ k = 2 \/ k = 3)%nat as [-> | [-> | ->]] by lia.
  - change (1024 ^ (Z.of_nat 1 + 1)) with 1048576 in *.
    change (1024 ^ Z.of_nat 1) with 1024 in *.
    rewrite size_label_unfold, !round53_ltb, round53_small by lia.
    destruct (Z.ltb_spec n 1024); [lia|].
    destruct (Z.ltb_spec n (2 ^ 20)); [|lia].
    rewrite format_f_1024 by lia. reflexivity.
  - change (1024 ^ (Z.of_nat 2 + 1)) with 1073741824 in *.
    change (1024 ^ Z.of_nat 2) with 1048576 in *.
    rewrite size_label_unfold, !round53_ltb, round53_small by lia.
    destruct (Z.ltb_spec n 1024); [lia|].
    destruct (Z.ltb_spec n (2 ^ 20)); [lia|].
    destruct (Z.ltb_spec n (2 ^ 30)); [|lia].
    rewrite format_f_1024 by lia. reflexivity.
  - change (1024 ^ (Z.of_nat 3 + 1)) with 1099511627776 in *.
    change (1024 ^ Z.of_nat 3) with 1073741824 in *.
    rewrite size_label_unfold, !round53_ltb, round53_small by lia.
    destruct (Z.ltb_spec n 1024); [lia|].
    destruct (Z.ltb_spec n (2 ^ 20)); [lia|].
    destruct (Z.ltb_spec n (2 ^ 30)); [lia|].
    destruct (Z.ltb_spec n (2 ^ 40)); [|lia].
    rewrite format_f_1024 by lia. reflexivity.
Qed.

Lemma size_label_rounds_up_to_1024_witness : size_label 1048575 = "1024.0 KB".
Proof.
  apply (size_label_rounds_up_to_1024 1 1048575); [lia | reflexivity | discriminate].
Defined.

(** ** The type label of a success *)





(** ** Success and failure of one conversion *)












(** ** Running a conversion again *)











(** ** The batch as a whole *)














(** ** Numbers documents with and without rows *)





(** ** What a round trip loses *)





(** ** The script as a whole *)


(** ** The calls of a successful conversion *)









(** ** The input and what is never removed *)




